(** * Vendor catalog importer: scripts/imports/upload_products.py

    A shallow embedding of [insert_products] and of the module-level script
    that calls it five times.  Python effects are modelled explicitly:

    - [pd.read_csv] is an oracle of the world: per path, either an
      exception or the loaded DataFrame, given as its rows in [iterrows]
      order, each row a Series (label -> cell);
    - [collection.insert_many] is a fault oracle of the world: on a batch
      it either succeeds (all documents stored) or stores the first [k]
      documents (ordered bulk insert) and raises;
    - every call of [insert_many] is recorded in [w_writes], the console
      in [w_out];
    - exceptions are the [Raised] outcome of a small state/exception
      monad; [try ... except Exception as e] is [try_except]. *)

From Stdlib Require Import String Ascii List Bool Arith Lia.
Import ListNotations.
Open Scope string_scope.

(** ** Python data *)

(** A cell of a DataFrame after [read_csv] type inference. *)
Inductive value : Type :=
| VStr (s : string)
| VInt (n : nat)
| VFloat (text : string)
| VNaN.

(** A row yielded by [df.iterrows()]: a Series from column label to cell.
    [read_csv] de-duplicates header names, so lookup by first match is
    lookup by label. *)
Definition row := list (string * value).

(** A DataFrame, as the sequence of its rows. *)
Definition table := list row.

(** The dict literal built per row. *)
Definition product := list (string * value).

(** A Python exception: its class name and [str(e)]. *)
Inductive exn : Type :=
| PyExc (cls : string) (msg : string).

Definition exn_str (e : exn) : string :=
  match e with PyExc _ m => m end.

Definition KeyError (k : string) : exn :=
  PyExc "KeyError" ("'" ++ k ++ "'").

(** A console line printed by [insert_products]. *)
Inductive line : Type :=
| LSuccess (n : nat) (csv_file vendor_id : string)
| LError (csv_file cause : string).

(** Decimal rendering of [len(products)] inside the f-string. *)
Fixpoint digits (fuel n : nat) (acc : string) : string :=
  match fuel with
  | 0 => acc
  | S fuel' =>
      let acc' := String (ascii_of_nat (48 + n mod 10)) acc in
      if Nat.ltb n 10 then acc' else digits fuel' (n / 10) acc'
  end.

Definition show_nat (n : nat) : string := digits (S n) n "".

Definition render_line (l : line) : string :=
  match l with
  | LSuccess n csv_file vendor_id =>
      "✅ Inserted " ++ show_nat n ++ " products from " ++ csv_file
        ++ " for Vendor " ++ vendor_id ++ "."
  | LError csv_file cause =>
      "❌ Error processing " ++ csv_file ++ ": " ++ cause
  end.

(** ** The world the script runs in *)

Record world : Type := mkWorld {
  w_read : string -> exn + table;
  w_insert : list product -> option (nat * exn);
  w_coll : list product;
  w_writes : list (list product);
  w_out : list line
}.

Definition set_out (w : world) (o : list line) : world :=
  mkWorld (w_read w) (w_insert w) (w_coll w) (w_writes w) o.

Definition set_db (w : world) (c : list product) (ws : list (list product))
  : world :=
  mkWorld (w_read w) (w_insert w) c ws (w_out w).

(** ** A state and exception monad *)

Inductive outcome (A : Type) : Type :=
| Ok (a : A)
| Raised (e : exn).
Arguments Ok {A} a.
Arguments Raised {A} e.

Definition M (A : Type) : Type := world -> world * outcome A.

Definition ret {A} (a : A) : M A := fun w => (w, Ok a).

Definition raise {A} (e : exn) : M A := fun w => (w, Raised e).

Definition bind {A B} (m : M A) (k : A -> M B) : M B :=
  fun w =>
    let (w', o) := m w in
    match o with
    | Ok a => k a w'
    | Raised e => (w', Raised e)
    end.

Notation "x <- m ;; k" := (bind m (fun x => k))
  (at level 61, m at next level, right associativity).

(** [try: body  except Exception as e: handler(e)]. *)
Definition try_except {A} (body : M A) (handler : exn -> M A) : M A :=
  fun w =>
    let (w', o) := body w in
    match o with
    | Ok a => (w', Ok a)
    | Raised e => handler e w'
    end.

(** ** Primitives *)

Definition read_csv (csv_file : string) : M table :=
  fun w =>
    match w_read w csv_file with
    | inl e => (w, Raised e)
    | inr df => (w, Ok df)
    end.

Definition print (l : line) : M unit :=
  fun w => (set_out w (w_out w ++ [l])%list, Ok tt).

Definition insert_many (docs : list product) : M unit :=
  fun w =>
    let ws := (w_writes w ++ [docs])%list in
    match w_insert w docs with
    | None => (set_db w (w_coll w ++ docs)%list ws, Ok tt)
    | Some (k, e) => (set_db w (w_coll w ++ firstn k docs)%list ws, Raised e)
    end.

Fixpoint assoc (k : string) (r : row) : option value :=
  match r with
  | [] => None
  | (k', x) :: r' => if String.eqb k k' then Some x else assoc k r'
  end.

(** [row[k]] on a Series: [KeyError] when the label is absent. *)
Definition row_get (r : row) (k : string) : M value :=
  match assoc k r with
  | Some x => ret x
  | None => raise (KeyError k)
  end.

(** ** insert_products *)

(** The dict display of lines 19-31, evaluated left to right. *)
Definition mk_product (vendor_id : string) (r : row) : M product :=
  manufacturer <- row_get r "Manufacturer" ;;
  model <- row_get r "Model" ;;
  speed <- row_get r "Speed" ;;
  description <- row_get r "Description" ;;
  cost <- row_get r "Cost" ;;
  installation <- row_get r "Installation" ;;
  profit_margin <- row_get r "Profit Margin" ;;
  min_volume <- row_get r "Min Volume" ;;
  max_volume <- row_get r "Max Volume" ;;
  total_machine_cost <- row_get r "Total Machine Cost" ;;
  ret [("vendor", VStr vendor_id);
       ("manufacturer", manufacturer);
       ("model", model);
       ("speed", speed);
       ("description", description);
       ("cost", cost);
       ("installation", installation);
       ("profit_margin", profit_margin);
       ("min_volume", min_volume);
       ("max_volume", max_volume);
       ("total_machine_cost", total_machine_cost)].

(** [for _, row in df.iterrows(): products.append(product)]. *)
Fixpoint map_rows (vendor_id : string) (rows : table) (products : list product)
  : M (list product) :=
  match rows with
  | [] => ret products
  | r :: rs =>
      product <- mk_product vendor_id r ;;
      map_rows vendor_id rs (products ++ [product])%list
  end.

Definition insert_products (csv_file vendor_id : string) : M unit :=
  try_except
    (df <- read_csv csv_file ;;
     products <- map_rows vendor_id df [] ;;
     match products with
     | [] => ret tt
     | _ :: _ =>
         _ <- insert_many products ;;
         print (LSuccess (length products) csv_file vendor_id)
     end)
    (fun e => print (LError csv_file (exn_str e))).

(** The module-level calls, lines 42-46, run as a sequence of statements:
    an exception escaping one call would abort the rest. *)
Fixpoint run_calls (calls : list (string * string)) : M unit :=
  match calls with
  | [] => ret tt
  | (csv_file, vendor_id) :: cs =>
      _ <- insert_products csv_file vendor_id ;;
      run_calls cs
  end.

Definition upload_calls : list (string * string) :=
  [("Canon_Pricing_Table.csv", "67916a0d2de3001c450d5a17");
   ("Sharp_Pricing_Table.csv", "67916a3f2de3001c450d5a1a");
   ("Konica_Minolta_Pricing_Table.csv", "67916a6e2de3001c450d5a1d");
   ("Ricoh_Pricing_Table.csv", "67916aaf2de3001c450d5a20");
   ("Xerox_Pricing_Table.csv", "67916af32de3001c450d5a23")].

Definition main : M unit := run_calls upload_calls.

(** ** Vocabulary for the properties *)

(** The ten column labels read by the dict display, in its order. *)
Definition required_columns : list string :=
  ["Manufacturer"; "Model"; "Speed"; "Description"; "Cost"; "Installation";
   "Profit Margin"; "Min Volume"; "Max Volume"; "Total Machine Cost"].

Definition has_column (r : row) (c : string) : bool :=
  match assoc c r with Some _ => true | None => false end.

(** A row has every required column. *)
Definition has_required_columns (r : row) : bool :=
  forallb (has_column r) required_columns.

(** Record field name, paired with the column it is copied from. *)
Definition field_map : list (string * string) :=
  [("manufacturer", "Manufacturer"); ("model", "Model"); ("speed", "Speed");
   ("description", "Description"); ("cost", "Cost");
   ("installation", "Installation"); ("profit_margin", "Profit Margin");
   ("min_volume", "Min Volume"); ("max_volume", "Max Volume");
   ("total_machine_cost", "Total Machine Cost")].

Definition product_keys : list string := "vendor" :: map fst field_map.

(** The cell of column [c], [VNaN] when absent (only used on rows that
    have every required column). *)
Definition cell (r : row) (c : string) : value :=
  match assoc c r with Some x => x | None => VNaN end.

(** The dict [mk_product] builds from a row with every required column. *)
Definition product_dict (vendor_id : string) (r : row) : product :=
  ("vendor", VStr vendor_id)
    :: map (fun '(k, c) => (k, cell r c)) field_map.

(** The inserted-count reported on the console, if any. *)
Fixpoint reported_count (out : list line) : option nat :=
  match out with
  | [] => None
  | LSuccess n _ _ :: _ => Some n
  | _ :: out' => reported_count out'
  end.

(** Substring test on rendered console text. *)
Fixpoint contains (needle hay : string) : bool :=
  String.prefix needle hay
  || match hay with
     | EmptyString => false
     | String _ hay' => contains needle hay'
     end.

(** ** Sample worlds *)

Definition spec_row : row :=
  [("Manufacturer", VStr "Acme"); ("Model", VStr "X100"); ("Speed", VInt 30);
   ("Description", VStr "fast printer"); ("Cost", VInt 500);
   ("Installation", VInt 50); ("Profit Margin", VFloat "0.2");
   ("Min Volume", VInt 1); ("Max Volume", VInt 100);
   ("Total Machine Cost", VInt 600)].

Definition sample_world (df : exn + table) (fault : option (nat * exn))
  : world :=
  mkWorld (fun _ => df) (fun _ => fault) [] [] [].

(** ** Building one record *)

Lemma bind_row_get_some {B} (r : row) (c : string) (x : value)
  (k : value -> M B) (w : world) :
  assoc c r = Some x -> bind (row_get r c) k w = k x w.
Proof. intros E. unfold bind, row_get. rewrite E. reflexivity. Qed.

Lemma bind_row_get_none {B} (r : row) (c : string)
  (k : value -> M B) (w : world) :
  assoc c r = None -> bind (row_get r c) k w = (w, Raised (KeyError c)).
Proof. intros E. unfold bind, row_get. rewrite E. reflexivity. Qed.

(** Walk the dict display one [row[c]] at a time. *)
Ltac walk_cells r :=
  repeat match goal with
         | |- context [bind (row_get r ?c) ?k ?w] =>
             let E := fresh "E" in
             destruct (assoc c r) eqn:E;
             [ rewrite (bind_row_get_some r c _ k w E)
             | rewrite (bind_row_get_none r c k w E) ]
         end.

Ltac cells_in H :=
  unfold has_required_columns, has_column in H; simpl in H;
  repeat match goal with
         | E : assoc _ _ = _ |- _ => rewrite E in H; clear E
         end;
  simpl in H.

Lemma mk_product_ok (vendor_id : string) (r : row) (w : world) :
  has_required_columns r = true ->
  mk_product vendor_id r w = (w, Ok (product_dict vendor_id r)).
Proof.
  intros H. unfold mk_product, product_dict, cell. simpl.
  walk_cells r; cells_in H; try discriminate H.
  repeat match goal with
         | E : assoc _ _ = _ |- _ => rewrite E; clear E
         end.
  reflexivity.
Qed.

Lemma mk_product_missing (vendor_id : string) (r : row) (w : world) :
  has_required_columns r = false ->
  exists c, In c required_columns /\
            mk_product vendor_id r w = (w, Raised (KeyError c)).
Proof.
  intros H. unfold mk_product.
  walk_cells r;
    try (eexists; split; [| reflexivity]; simpl; tauto).
  cells_in H. discriminate H.
Qed.

(** ** The mapping loop *)

Lemma map_rows_ok (vendor_id : string) (t : table) (acc : list product)
  (w : world) :
  forallb has_required_columns t = true ->
  map_rows vendor_id t acc w
  = (w, Ok (acc ++ map (product_dict vendor_id) t)%list).
Proof.
  revert acc. induction t as [| r t IH]; intros acc H; simpl.
  - rewrite app_nil_r. reflexivity.
  - apply andb_prop in H as [Hr Ht].
    unfold bind. rewrite (mk_product_ok _ _ _ Hr), IH by exact Ht.
    rewrite <- app_assoc. reflexivity.
Qed.

Lemma map_rows_missing (vendor_id : string) (t : table) (acc : list product)
  (w : world) :
  forallb has_required_columns t = false ->
  exists c, In c required_columns /\
            map_rows vendor_id t acc w = (w, Raised (KeyError c)).
Proof.
  revert acc. induction t as [| r t IH]; intros acc H; simpl in *.
  - discriminate H.
  - unfold bind.
    destruct (has_required_columns r) eqn:Hr; simpl in H.
    + rewrite (mk_product_ok _ _ _ Hr). apply IH, H.
    + destruct (mk_product_missing vendor_id r w Hr) as [c [Hc E]].
      exists c. rewrite E. auto.
Qed.

(** ** The outcomes of one invocation *)

Lemma insert_products_load_error (csv_file vendor_id : string) (w : world)
  (e : exn) :
  w_read w csv_file = inl e ->
  insert_products csv_file vendor_id w
  = (set_out w (w_out w ++ [LError csv_file (exn_str e)])%list, Ok tt).
Proof.
  intros E. unfold insert_products, try_except, bind, read_csv.
  rewrite E. reflexivity.
Qed.

Lemma insert_products_missing (csv_file vendor_id : string) (w : world)
  (t : table) :
  w_read w csv_file = inr t ->
  forallb has_required_columns t = false ->
  exists c, In c required_columns /\
    insert_products csv_file vendor_id w
    = (set_out w (w_out w ++ [LError csv_file ("'" ++ c ++ "'")])%list,
       Ok tt).
Proof.
  intros E H.
  destruct (map_rows_missing vendor_id t [] w H) as [c [Hc Em]].
  exists c. split; [exact Hc |].
  unfold insert_products, try_except, bind, read_csv.
  rewrite E. simpl. rewrite Em. reflexivity.
Qed.

Lemma insert_products_empty (csv_file vendor_id : string) (w : world) :
  w_read w csv_file = inr [] ->
  insert_products csv_file vendor_id w = (w, Ok tt).
Proof.
  intros E. unfold insert_products, try_except, bind, read_csv.
  rewrite E. reflexivity.
Qed.

Lemma insert_products_written (csv_file vendor_id : string) (w : world)
  (t : table) :
  w_read w csv_file = inr t ->
  forallb has_required_columns t = true ->
  t <> [] ->
  let ps := map (product_dict vendor_id) t in
  insert_products csv_file vendor_id w
  = match w_insert w ps with
    | None =>
        (mkWorld (w_read w) (w_insert w) (w_coll w ++ ps)%list
           (w_writes w ++ [ps])%list
           (w_out w ++ [LSuccess (length t) csv_file vendor_id])%list,
         Ok tt)
    | Some (k, e) =>
        (mkWorld (w_read w) (w_insert w) (w_coll w ++ firstn k ps)%list
           (w_writes w ++ [ps])%list
           (w_out w ++ [LError csv_file (exn_str e)])%list,
         Ok tt)
    end.
Proof.
  intros E H Hne ps.
  unfold insert_products, try_except, bind, read_csv.
  rewrite E. simpl. rewrite (map_rows_ok _ _ _ _ H). simpl.
  destruct t as [| r t]; [congruence |]. simpl in ps |- *.
  unfold insert_many. subst ps. simpl.
  destruct (w_insert w _) as [[k e] |]; simpl;
    rewrite ?length_map; reflexivity.
Qed.

(** A view of [insert_products] by the path its body takes. *)
Inductive insert_view (csv_file vendor_id : string) (w : world)
  : world * outcome unit -> Prop :=
| IVLoadError (e : exn) :
    w_read w csv_file = inl e ->
    insert_view csv_file vendor_id w
      (set_out w (w_out w ++ [LError csv_file (exn_str e)])%list, Ok tt)
| IVMissing (t : table) (c : string) :
    w_read w csv_file = inr t ->
    forallb has_required_columns t = false ->
    In c required_columns ->
    insert_view csv_file vendor_id w
      (set_out w (w_out w ++ [LError csv_file ("'" ++ c ++ "'")])%list,
       Ok tt)
| IVEmpty :
    w_read w csv_file = inr [] ->
    insert_view csv_file vendor_id w (w, Ok tt)
| IVWritten (t : table) :
    w_read w csv_file = inr t ->
    forallb has_required_columns t = true ->
    t <> [] ->
    w_insert w (map (product_dict vendor_id) t) = None ->
    insert_view csv_file vendor_id w
      (mkWorld (w_read w) (w_insert w)
         (w_coll w ++ map (product_dict vendor_id) t)%list
         (w_writes w ++ [map (product_dict vendor_id) t])%list
         (w_out w ++ [LSuccess (length t) csv_file vendor_id])%list,
       Ok tt)
| IVWriteFailed (t : table) (k : nat) (e : exn) :
    w_read w csv_file = inr t ->
    forallb has_required_columns t = true ->
    t <> [] ->
    w_insert w (map (product_dict vendor_id) t) = Some (k, e) ->
    insert_view csv_file vendor_id w
      (mkWorld (w_read w) (w_insert w)
         (w_coll w ++ firstn k (map (product_dict vendor_id) t))%list
         (w_writes w ++ [map (product_dict vendor_id) t])%list
         (w_out w ++ [LError csv_file (exn_str e)])%list,
       Ok tt).

Lemma insert_productsP (csv_file vendor_id : string) (w : world) :
  insert_view csv_file vendor_id w (insert_products csv_file vendor_id w).
Proof.
  destruct (w_read w csv_file) as [e | t] eqn:E.
  - rewrite (insert_products_load_error _ vendor_id _ _ E).
    apply IVLoadError, E.
  - destruct (forallb has_required_columns t) eqn:H.
    + destruct t as [| r t'].
      * rewrite (insert_products_empty _ vendor_id _ E). apply IVEmpty, E.
      * assert (Hne : r :: t' <> []) by discriminate.
        pose proof (insert_products_written csv_file vendor_id w _ E H Hne)
          as W.
        simpl in W. rewrite W.
        destruct (w_insert w _) as [[k e] |] eqn:I.
        -- apply (IVWriteFailed _ _ _ (r :: t')); assumption.
        -- apply (IVWritten _ _ _ (r :: t')); assumption.
    + destruct (insert_products_missing csv_file vendor_id w t E H)
        as [c [Hc W]].
      rewrite W. apply (IVMissing _ _ _ t); assumption.
Qed.

(** ** Facts about the records *)

Lemma cell_present (r : row) (c : string) :
  has_column r c = true -> assoc c r = Some (cell r c).
Proof.
  unfold has_column, cell. destruct (assoc c r); congruence.
Qed.

Lemma field_map_required (k c : string) :
  In (k, c) field_map -> In c required_columns.
Proof.
  simpl. intros H.
  repeat destruct H as [H | H]; try (injection H as <- <-; simpl; tauto).
  contradiction.
Qed.

Lemma product_dict_field (vendor_id : string) (r : row) (k c : string) :
  In (k, c) field_map -> assoc k (product_dict vendor_id r) = Some (cell r c).
Proof.
  simpl. intros H.
  repeat destruct H as [H | H]; try (injection H as <- <-; reflexivity).
  contradiction.
Qed.

Lemma required_cell (r : row) (c : string) :
  has_required_columns r = true -> In c required_columns ->
  assoc c r = Some (cell r c).
Proof.
  intros H Hc. apply cell_present.
  unfold has_required_columns in H. rewrite forallb_forall in H. auto.
Qed.

Lemma product_dict_vendor (vendor_id : string) (t : table) (p : product) :
  In p (map (product_dict vendor_id) t) ->
  assoc "vendor" p = Some (VStr vendor_id).
Proof.
  rewrite in_map_iff. intros [r [<- _]]. reflexivity.
Qed.

Lemma In_firstn_In {A} (k : nat) (l : list A) (x : A) :
  In x (firstn k l) -> In x l.
Proof.
  intros H. rewrite <- (firstn_skipn k l). apply in_or_app. auto.
Qed.

(** A handler that always returns makes the [try] statement return. *)
Lemma try_except_returns (body : M unit) (handler : exn -> M unit)
  (w : world) :
  (forall e w0, snd (handler e w0) = Ok tt) ->
  snd (try_except body handler w) = Ok tt.
Proof.
  intros Hh. unfold try_except.
  destruct (body w) as [w' [[] | e]]; [reflexivity | apply Hh].
Qed.

Lemma insert_products_returns (csv_file vendor_id : string) (w : world) :
  snd (insert_products csv_file vendor_id w) = Ok tt.
Proof.
  apply try_except_returns. intros e w0. reflexivity.
Qed.

(** ** Properties of insert_products *)

(** C1: on a loaded file of R rows, each with all ten required columns, the
    loop maps exactly R records, each record's ten fields are the row's
    cells, and when the bulk write succeeds the count R is printed. *)
Theorem insert_products_maps_every_row (csv_file vendor_id : string)
  (w : world) (t : table) :
  w_read w csv_file = inr t ->
  (forall r, In r t -> has_required_columns r = true) ->
  exists products,
    map_rows vendor_id t [] w = (w, Ok products) /\
    length products = length t /\
    (forall i p r, nth_error products i = Some p -> nth_error t i = Some r ->
       forall k c, In (k, c) field_map -> assoc k p = assoc c r) /\
    (t <> [] -> w_insert w products = None ->
     exists w', insert_products csv_file vendor_id w = (w', Ok tt) /\
       w_coll w' = (w_coll w ++ products)%list /\
       w_out w' = (w_out w ++ [LSuccess (length t) csv_file vendor_id])%list).
Proof.
  intros E Hwf.
  assert (H : forallb has_required_columns t = true)
    by (apply forallb_forall; exact Hwf).
  exists (map (product_dict vendor_id) t). repeat split.
  - rewrite (map_rows_ok _ _ _ _ H). reflexivity.
  - apply length_map.
  - intros i p r Hp Hr k c Hkc.
    rewrite nth_error_map, Hr in Hp. injection Hp as <-.
    rewrite (product_dict_field _ _ _ _ Hkc).
    symmetry. apply required_cell.
    + apply Hwf. eapply nth_error_In, Hr.
    + eapply field_map_required, Hkc.
  - intros Hne I.
    pose proof (insert_products_written csv_file vendor_id w t E H Hne) as W.
    simpl in W. rewrite I in W.
    eexists. split; [exact W |]. split; reflexivity.
Qed.

(** C2: every record an invocation submits to [insert_many], and every
    record it stores, has vendor field the [vendor_id] argument, whatever
    the file holds. *)
Theorem insert_products_vendor_is_argument (csv_file vendor_id : string)
  (w : world) :
  exists batches stored,
    w_writes (fst (insert_products csv_file vendor_id w))
      = (w_writes w ++ batches)%list /\
    w_coll (fst (insert_products csv_file vendor_id w))
      = (w_coll w ++ stored)%list /\
    (forall b p, In b batches -> In p b ->
       assoc "vendor" p = Some (VStr vendor_id)) /\
    (forall p, In p stored -> assoc "vendor" p = Some (VStr vendor_id)).
Proof.
  destruct (insert_productsP csv_file vendor_id w); simpl.
  1-3: exists [], []; rewrite !app_nil_r;
       repeat split; simpl; tauto.
  - exists [map (product_dict vendor_id) t], (map (product_dict vendor_id) t).
    repeat split.
    + intros b p [<- | []]. apply product_dict_vendor.
    + apply product_dict_vendor.
  - exists [map (product_dict vendor_id) t],
      (firstn k (map (product_dict vendor_id) t)).
    repeat split.
    + intros b p [<- | []]. apply product_dict_vendor.
    + intros p Hp. eapply product_dict_vendor, In_firstn_In, Hp.
Qed.

(** C3: when the file loads but some row lacks a required column, the
    [KeyError] is caught by the handler that also catches load failures:
    nothing is submitted or stored, and only the error line is printed. *)
Theorem insert_products_aborts_on_missing_column (csv_file vendor_id : string)
  (w : world) (t : table) :
  w_read w csv_file = inr t ->
  (exists r, In r t /\ has_required_columns r = false) ->
  exists c, In c required_columns /\
    insert_products csv_file vendor_id w
    = (set_out w (w_out w ++ [LError csv_file (exn_str (KeyError c))])%list,
       Ok tt).
Proof.
  intros E [r [Hr Hbad]].
  assert (H : forallb has_required_columns t = false).
  { destruct (forallb has_required_columns t) eqn:F; [| reflexivity].
    rewrite forallb_forall in F. rewrite (F r Hr) in Hbad. discriminate. }
  exact (insert_products_missing csv_file vendor_id w t E H).
Qed.

(** C8: [insert_products] always returns normally: no exception of the
    body escapes the [except Exception] handler. *)
Theorem insert_products_never_raises (csv_file vendor_id : string)
  (w : world) :
  snd (insert_products csv_file vendor_id w) = Ok tt.
Proof.
  apply insert_products_returns.
Qed.

(** C5: in a sequence of invocations, whatever the earlier ones do, the
    later ones run from the world they leave, and no exception escapes. *)
Theorem run_calls_continue_after_failure
  (calls1 calls2 : list (string * string)) (w : world) :
  run_calls (calls1 ++ calls2) w
    = run_calls calls2 (fst (run_calls calls1 w)) /\
  snd (run_calls calls1 w) = Ok tt.
Proof.
  revert w. induction calls1 as [| [f v] cs IH]; intros w; simpl.
  - split; reflexivity.
  - unfold bind.
    pose proof (insert_products_returns f v w) as N.
    destruct (insert_products f v w) as [w1 o]. simpl in N. subst o.
    apply IH.
Qed.

(** C4 (as the code does it): a file that loads with zero data rows
    leaves the world unchanged: no [insert_many] call and no console
    line, so no inserted-count, not even 0, is reported. *)
Theorem insert_products_empty_file_silent (csv_file vendor_id : string)
  (w : world) :
  w_read w csv_file = inr [] ->
  insert_products csv_file vendor_id w = (w, Ok tt).
Proof.
  apply insert_products_empty.
Qed.

(** C6 (as the code does it): when the bulk write fails, [insert_many] was
    called once with the batch, no success line is printed, and the one
    error line carries the file name and [str(e)] of the write error;
    documents the destination stored before failing stay stored. *)
Theorem insert_products_write_failure (csv_file vendor_id : string)
  (w : world) (t : table) (k : nat) (e : exn) :
  w_read w csv_file = inr t ->
  (forall r, In r t -> has_required_columns r = true) ->
  t <> [] ->
  w_insert w (map (product_dict vendor_id) t) = Some (k, e) ->
  insert_products csv_file vendor_id w
  = (mkWorld (w_read w) (w_insert w)
       (w_coll w ++ firstn k (map (product_dict vendor_id) t))%list
       (w_writes w ++ [map (product_dict vendor_id) t])%list
       (w_out w ++ [LError csv_file (exn_str e)])%list,
     Ok tt).
Proof.
  intros E Hwf Hne I.
  assert (H : forallb has_required_columns t = true)
    by (apply forallb_forall; exact Hwf).
  pose proof (insert_products_written csv_file vendor_id w t E H Hne) as W.
  simpl in W. rewrite I in W. exact W.
Qed.



(** C9: the batch submitted to [insert_many] is built row by row in the
    file's order: its i-th record is [mk_product] of the i-th row. *)
Theorem insert_products_preserves_row_order (csv_file vendor_id : string)
  (w : world) (t : table) :
  w_read w csv_file = inr t ->
  (forall r, In r t -> has_required_columns r = true) ->
  t <> [] ->
  exists batch,
    w_writes (fst (insert_products csv_file vendor_id w))
      = (w_writes w ++ [batch])%list /\
    length batch = length t /\
    (forall i r, nth_error t i = Some r ->
       exists p, nth_error batch i = Some p /\
                 mk_product vendor_id r w = (w, Ok p)).
Proof.
  intros E Hwf Hne.
  assert (H : forallb has_required_columns t = true)
    by (apply forallb_forall; exact Hwf).
  exists (map (product_dict vendor_id) t). split; [| split].
  - pose proof (insert_products_written csv_file vendor_id w t E H Hne) as W.
    simpl in W. rewrite W.
    destruct (w_insert w _) as [[k e] |]; reflexivity.
  - apply length_map.
  - intros i r Hr. exists (product_dict vendor_id r). split.
    + rewrite nth_error_map, Hr. reflexivity.
    + apply mk_product_ok, Hwf. eapply nth_error_In, Hr.
Qed.

(** C10: a record built by [mk_product] has exactly the eleven keys
    vendor and the ten mapped fields, each once; its vendor is the
    argument and every other value is the cell of the field's column. *)
Theorem mk_product_eleven_fields (vendor_id : string) (r : row) (w : world) :
  match snd (mk_product vendor_id r w) with
  | Ok p =>
      map fst p = product_keys /\ NoDup product_keys /\ length p = 11 /\
      (forall k x, In (k, x) p ->
         (k = "vendor" /\ x = VStr vendor_id) \/
         (exists c, In (k, c) field_map /\ assoc c r = Some x))
  | Raised _ => True
  end.
Proof.
  destruct (has_required_columns r) eqn:H.
  - rewrite (mk_product_ok _ _ _ H). cbn [snd].
    split; [reflexivity |]. split.
    { unfold product_keys. simpl.
      repeat constructor; simpl; intuition discriminate. }
    split; [reflexivity |].
    intros k x Hin. unfold product_dict in Hin. destruct Hin as [Hin | Hin].
    + left. injection Hin as <- <-. auto.
    + right. apply in_map_iff in Hin as [[k' c] [Hkc Hin]].
      simpl in Hkc. injection Hkc as <- <-. exists c. split; [exact Hin |].
      apply required_cell; [exact H | eapply field_map_required, Hin].
  - destruct (mk_product_missing vendor_id r w H) as [c [_ ->]]. exact I.
Qed.

(** ** Concrete runs *)

(** The spec's example file, one well-formed row, written successfully. *)
Lemma insert_products_maps_every_row_witness :
  w_read (sample_world (inr [spec_row]) None) "vendors_a.csv" = inr [spec_row] /\
  (forall r, In r [spec_row] -> has_required_columns r = true) /\
  exists products,
    map_rows "v1" [spec_row] [] (sample_world (inr [spec_row]) None)
      = (sample_world (inr [spec_row]) None, Ok products) /\
    length products = length [spec_row] /\
    (forall i p r, nth_error products i = Some p ->
       nth_error [spec_row] i = Some r ->
       forall k c, In (k, c) field_map -> assoc k p = assoc c r) /\
    ([spec_row] <> [] ->
     w_insert (sample_world (inr [spec_row]) None) products = None ->
     exists w', insert_products "vendors_a.csv" "v1"
                  (sample_world (inr [spec_row]) None) = (w', Ok tt) /\
       w_coll w' = (w_coll (sample_world (inr [spec_row]) None) ++ products)%list /\
       w_out w' = (w_out (sample_world (inr [spec_row]) None)
                   ++ [LSuccess (length [spec_row]) "vendors_a.csv" "v1"])%list).
Proof.
  assert (Hwf : forall r, In r [spec_row] -> has_required_columns r = true)
    by (apply forallb_forall; reflexivity).
  split; [reflexivity |]. split; [exact Hwf |].
  exact (insert_products_maps_every_row "vendors_a.csv" "v1"
           (sample_world (inr [spec_row]) None) [spec_row] eq_refl Hwf).
Defined.

Definition bad_row : row := [("Model", VStr "X200")].

Lemma insert_products_aborts_on_missing_column_witness :
  w_read (sample_world (inr [spec_row; bad_row]) None) "vendors_b.csv"
    = inr [spec_row; bad_row] /\
  (exists r, In r [spec_row; bad_row] /\ has_required_columns r = false) /\
  exists c, In c required_columns /\
    insert_products "vendors_b.csv" "v2" (sample_world (inr [spec_row; bad_row]) None)
    = (set_out (sample_world (inr [spec_row; bad_row]) None)
         (w_out (sample_world (inr [spec_row; bad_row]) None)
          ++ [LError "vendors_b.csv" (exn_str (KeyError c))])%list,
       Ok tt).
Proof.
  assert (Hbad : exists r, In r [spec_row; bad_row] /\
                           has_required_columns r = false)
    by (exists bad_row; split; [simpl; tauto | reflexivity]).
  split; [reflexivity |]. split; [exact Hbad |].
  exact (insert_products_aborts_on_missing_column "vendors_b.csv" "v2"
           (sample_world (inr [spec_row; bad_row]) None) _ eq_refl Hbad).
Defined.

Lemma insert_products_empty_file_silent_witness :
  w_read (sample_world (inr []) None) "vendors_empty.csv" = inr [] /\
  insert_products "vendors_empty.csv" "v1" (sample_world (inr []) None)
    = (sample_world (inr []) None, Ok tt).
Proof.
  split; [reflexivity |].
  exact (insert_products_empty_file_silent "vendors_empty.csv" "v1"
           (sample_world (inr []) None) eq_refl).
Defined.

(** C4 as stated fails: on an empty file no count is reported at all. *)
Lemma empty_file_reports_no_count :
  ~ (w_writes (fst (insert_products "vendors_empty.csv" "v1"
                      (sample_world (inr []) None))) = [] /\
     reported_count (w_out (fst (insert_products "vendors_empty.csv" "v1"
                      (sample_world (inr []) None)))) = Some 0).
Proof.
  vm_compute. intros [_ H]. discriminate H.
Qed.

Definition write_fault : exn := PyExc "AutoReconnect" "connection closed".

Lemma insert_products_write_failure_witness :
  w_read (sample_world (inr [spec_row]) (Some (0, write_fault)))
    "Canon_Pricing_Table.csv" = inr [spec_row] /\
  (forall r, In r [spec_row] -> has_required_columns r = true) /\
  [spec_row] <> [] /\
  w_insert (sample_world (inr [spec_row]) (Some (0, write_fault)))
    (map (product_dict "67916a0d2de3001c450d5a17") [spec_row])
    = Some (0, write_fault) /\
  insert_products "Canon_Pricing_Table.csv" "67916a0d2de3001c450d5a17"
    (sample_world (inr [spec_row]) (Some (0, write_fault)))
  = (mkWorld (fun _ => inr [spec_row]) (fun _ => Some (0, write_fault))
       [] [map (product_dict "67916a0d2de3001c450d5a17") [spec_row]]
       [LError "Canon_Pricing_Table.csv" "connection closed"], Ok tt).
Proof.
  assert (Hwf : forall r, In r [spec_row] -> has_required_columns r = true)
    by (apply forallb_forall; reflexivity).
  assert (Hne : [spec_row] <> []) by discriminate.
  split; [reflexivity |]. split; [exact Hwf |]. split; [exact Hne |].
  split; [reflexivity |].
  exact (insert_products_write_failure "Canon_Pricing_Table.csv"
           "67916a0d2de3001c450d5a17"
           (sample_world (inr [spec_row]) (Some (0, write_fault)))
           [spec_row] 0 write_fault eq_refl Hwf Hne eq_refl).
Defined.

(** C6 as stated fails: the error line after a failed write names the
    file but not the vendor id. *)
Lemma write_failure_line_lacks_vendor :
  ~ exists l,
      In l (w_out (fst (insert_products "Canon_Pricing_Table.csv"
                          "67916a0d2de3001c450d5a17"
                          (sample_world (inr [spec_row])
                             (Some (0, write_fault)))))) /\
      contains "Canon_Pricing_Table.csv" (render_line l) = true /\
      contains "67916a0d2de3001c450d5a17" (render_line l) = true.
Proof.
  vm_compute. intros [l [[<- | []] [_ H]]]. vm_compute in H. discriminate H.
Qed.


Lemma insert_products_preserves_row_order_witness :
  w_read (sample_world (inr [spec_row; spec_row]) None) "vendors_a.csv"
    = inr [spec_row; spec_row] /\
  (forall r, In r [spec_row; spec_row] -> has_required_columns r = true) /\
  [spec_row; spec_row] <> [] /\
  exists batch,
    w_writes (fst (insert_products "vendors_a.csv" "v1"
                     (sample_world (inr [spec_row; spec_row]) None)))
      = (w_writes (sample_world (inr [spec_row; spec_row]) None) ++ [batch])%list /\
    length batch = length [spec_row; spec_row] /\
    (forall i r, nth_error [spec_row; spec_row] i = Some r ->
       exists p, nth_error batch i = Some p /\
                 mk_product "v1" r (sample_world (inr [spec_row; spec_row]) None)
                 = (sample_world (inr [spec_row; spec_row]) None, Ok p)).
Proof.
  assert (Hwf : forall r, In r [spec_row; spec_row] ->
                          has_required_columns r = true)
    by (apply forallb_forall; reflexivity).
  assert (Hne : [spec_row; spec_row] <> []) by discriminate.
  split; [reflexivity |]. split; [exact Hwf |]. split; [exact Hne |].
  exact (insert_products_preserves_row_order "vendors_a.csv" "v1"
           (sample_world (inr [spec_row; spec_row]) None) _ eq_refl Hwf Hne).
Defined.

(** ** Further properties of the importer and of the script *)

Lemma insert_products_oracles (csv_file vendor_id : string) (w : world) :
  w_read (fst (insert_products csv_file vendor_id w)) = w_read w /\
  w_insert (fst (insert_products csv_file vendor_id w)) = w_insert w.
Proof.
  destruct (insert_productsP csv_file vendor_id w); split; reflexivity.
Qed.

(** Whether a call prints a console line: all but files that load empty. *)
Definition prints_line (rd : string -> exn + table) (call : string * string)
  : bool :=
  match rd (fst call) with
  | inr [] => false
  | _ => true
  end.

(** Whether a call reaches [insert_many]: a non-empty, well-formed table. *)
Definition reaches_write (rd : string -> exn + table) (call : string * string)
  : bool :=
  match rd (fst call) with
  | inr (r :: t) => forallb has_required_columns (r :: t)
  | _ => false
  end.

Lemma insert_products_out_length (csv_file vendor_id : string) (w : world) :
  length (w_out (fst (insert_products csv_file vendor_id w)))
  = length (w_out w)
    + (if prints_line (w_read w) (csv_file, vendor_id) then 1 else 0).
Proof.
  unfold prints_line; simpl.
  destruct (insert_productsP csv_file vendor_id w) as
    [e E | t c E H Hc | E | t E H Hne I | t k e E H Hne I];
    simpl; rewrite E; rewrite ?length_app; simpl; try lia.
  all: destruct t; [try discriminate H; congruence | simpl; lia].
Qed.

Lemma insert_products_writes_length (csv_file vendor_id : string) (w : world) :
  length (w_writes (fst (insert_products csv_file vendor_id w)))
  = length (w_writes w)
    + (if reaches_write (w_read w) (csv_file, vendor_id) then 1 else 0).
Proof.
  unfold reaches_write; simpl.
  destruct (insert_productsP csv_file vendor_id w) as
    [e E | t c E H Hc | E | t E H Hne I | t k e E H Hne I];
    simpl; rewrite E; rewrite ?length_app; simpl; try lia.
  - destruct t; [discriminate H | simpl in H |- *; rewrite H; lia].
  - destruct t; [congruence | simpl in H |- *; rewrite H; simpl; lia].
  - destruct t; [congruence | simpl in H |- *; rewrite H; simpl; lia].
Qed.

(** A run of calls prints one line per call whose file does not load
    empty, whatever fails along the way. *)
Theorem run_calls_console_count (calls : list (string * string)) (w : world) :
  length (w_out (fst (run_calls calls w)))
  = length (w_out w) + length (filter (prints_line (w_read w)) calls).
Proof.
  revert w. induction calls as [| [f v] cs IH]; intros w; simpl.
  - lia.
  - unfold bind.
    pose proof (insert_products_out_length f v w) as L.
    pose proof (insert_products_oracles f v w) as [Rd _].
    pose proof (insert_products_returns f v w) as N.
    destruct (insert_products f v w) as [w1 o]. simpl in L, Rd, N. subst o.
    rewrite IH, Rd, L.
    destruct (prints_line (w_read w) (f, v)); simpl; lia.
Qed.

(** A run of calls submits one bulk write per call whose file loads as a
    non-empty table with every required column, and no other. *)
Theorem run_calls_write_count (calls : list (string * string)) (w : world) :
  length (w_writes (fst (run_calls calls w)))
  = length (w_writes w) + length (filter (reaches_write (w_read w)) calls).
Proof.
  revert w. induction calls as [| [f v] cs IH]; intros w; simpl.
  - lia.
  - unfold bind.
    pose proof (insert_products_writes_length f v w) as L.
    pose proof (insert_products_oracles f v w) as [Rd _].
    pose proof (insert_products_returns f v w) as N.
    destruct (insert_products f v w) as [w1 o]. simpl in L, Rd, N. subst o.
    rewrite IH, Rd, L.
    destruct (reaches_write (w_read w) (f, v)); simpl; lia.
Qed.

(** What one invocation stores is a prefix of the one batch it submits,
    and every stored record carries the invocation's vendor id. *)
Lemma insert_products_stored (csv_file vendor_id : string) (w : world) :
  exists stored,
    w_coll (fst (insert_products csv_file vendor_id w))
      = (w_coll w ++ stored)%list /\
    (forall p, In p stored -> assoc "vendor" p = Some (VStr vendor_id)).
Proof.
  destruct (insert_productsP csv_file vendor_id w); simpl.
  1-3: exists []; rewrite app_nil_r; split; [reflexivity | intros _ []].
  - exists (map (product_dict vendor_id) t).
    split; [reflexivity | apply product_dict_vendor].
  - exists (firstn k (map (product_dict vendor_id) t)).
    split; [reflexivity |].
    intros p Hp. eapply product_dict_vendor, In_firstn_In, Hp.
Qed.

(** A run of calls never removes or rewrites stored documents: it only
    appends, and each appended record carries the vendor id of one of the
    calls. *)
Theorem run_calls_append_only (calls : list (string * string)) (w : world) :
  exists stored,
    w_coll (fst (run_calls calls w)) = (w_coll w ++ stored)%list /\
    (forall p, In p stored ->
       exists f v, In (f, v) calls /\ assoc "vendor" p = Some (VStr v)).
Proof.
  revert w. induction calls as [| [f v] cs IH]; intros w; simpl.
  - exists []. rewrite app_nil_r. split; [reflexivity | intros _ []].
  - unfold bind.
    destruct (insert_products_stored f v w) as [s1 [C1 V1]].
    pose proof (insert_products_returns f v w) as N.
    destruct (insert_products f v w) as [w1 o]. simpl in C1, N. subst o.
    destruct (IH w1) as [s2 [C2 V2]].
    exists (s1 ++ s2)%list. split.
    + rewrite C2, C1, app_assoc. reflexivity.
    + intros p Hp. apply in_app_or in Hp as [Hp | Hp].
      * exists f, v. split; [left; reflexivity | apply V1, Hp].
      * destruct (V2 p Hp) as [f' [v' [Hin Hv]]].
        exists f', v'. split; [right; exact Hin | exact Hv].
Qed.

(** One invocation calls [insert_many] at most once, and what it stores
    is a prefix of that one batch: nothing is retried or stored twice. *)
Theorem insert_products_single_write (csv_file vendor_id : string)
  (w : world) :
  (w_writes (fst (insert_products csv_file vendor_id w)) = w_writes w /\
   w_coll (fst (insert_products csv_file vendor_id w)) = w_coll w) \/
  (exists batch k,
     w_writes (fst (insert_products csv_file vendor_id w))
       = (w_writes w ++ [batch])%list /\
     w_coll (fst (insert_products csv_file vendor_id w))
       = (w_coll w ++ firstn k batch)%list).
Proof.
  destruct (insert_productsP csv_file vendor_id w); simpl.
  1-3: left; split; reflexivity.
  - right. exists (map (product_dict vendor_id) t),
      (length (map (product_dict vendor_id) t)).
    rewrite firstn_all. split; reflexivity.
  - right. exists (map (product_dict vendor_id) t), k. split; reflexivity.
Qed.

(** Re-running an import whose write succeeds stores the same records a
    second time: the code has no duplicate check. *)
Theorem insert_products_rerun_duplicates (csv_file vendor_id : string)
  (w : world) (t : table) :
  w_read w csv_file = inr t ->
  (forall r, In r t -> has_required_columns r = true) ->
  t <> [] ->
  w_insert w (map (product_dict vendor_id) t) = None ->
  w_coll (fst (insert_products csv_file vendor_id
                 (fst (insert_products csv_file vendor_id w))))
  = (w_coll w ++ map (product_dict vendor_id) t
       ++ map (product_dict vendor_id) t)%list.
Proof.
  intros E Hwf Hne I.
  assert (H : forallb has_required_columns t = true)
    by (apply forallb_forall; exact Hwf).
  pose proof (insert_products_written csv_file vendor_id w t E H Hne) as W1.
  simpl in W1. rewrite I in W1. rewrite W1. simpl.
  pose proof (insert_products_written csv_file vendor_id
                (mkWorld (w_read w) (w_insert w)
                   (w_coll w ++ map (product_dict vendor_id) t)%list
                   (w_writes w ++ [map (product_dict vendor_id) t])%list
                   (w_out w ++ [LSuccess (length t) csv_file vendor_id])%list)
                t E H Hne) as W2.
  simpl in W2. rewrite I in W2. rewrite W2. simpl.
  rewrite app_assoc. reflexivity.
Qed.

(** A success line is truthful: it names the invocation's file and vendor,
    and the collection grew by exactly the reported number of records, all
    of that vendor. *)
Theorem insert_products_success_line_truthful (csv_file vendor_id : string)
  (w : world) (n : nat) (f v : string) :
  w_out (fst (insert_products csv_file vendor_id w))
    = (w_out w ++ [LSuccess n f v])%list ->
  f = csv_file /\ v = vendor_id /\
  exists stored,
    w_coll (fst (insert_products csv_file vendor_id w))
      = (w_coll w ++ stored)%list /\
    length stored = n /\
    (forall p, In p stored -> assoc "vendor" p = Some (VStr vendor_id)).
Proof.
  destruct (insert_productsP csv_file vendor_id w) as
    [e E | t c E H Hc | E | t E H Hne I | t k e E H Hne I]; simpl;
    intros Hout.
  - apply app_inv_head in Hout. discriminate Hout.
  - apply app_inv_head in Hout. discriminate Hout.
  - apply (f_equal (@length line)) in Hout.
    rewrite length_app in Hout. simpl in Hout. lia.
  - apply app_inv_head in Hout. injection Hout as <- <- <-.
    split; [reflexivity |]. split; [reflexivity |].
    exists (map (product_dict vendor_id) t). split; [reflexivity |].
    split; [apply length_map | apply product_dict_vendor].
  - apply app_inv_head in Hout. discriminate Hout.
Qed.

(** The column named by [row[c]] that fails first: the dict display reads
    the ten columns in this order. *)
Definition first_missing (r : row) : option string :=
  find (fun c => negb (has_column r c)) required_columns.

Lemma mk_product_first_missing (vendor_id : string) (r : row) (w : world)
  (c : string) :
  first_missing r = Some c ->
  mk_product vendor_id r w = (w, Raised (KeyError c)).
Proof.
  intros H. unfold mk_product.
  unfold first_missing, has_column in H. simpl in H.
  walk_cells r;
    repeat match goal with
           | E : assoc _ _ = _ |- _ => rewrite E in H; clear E
           end;
    simpl in H; try discriminate H; injection H as <-; reflexivity.
Qed.

Lemma map_rows_app_ok (vendor_id : string) (pre rest : table)
  (acc : list product) (w : world) :
  forallb has_required_columns pre = true ->
  map_rows vendor_id (pre ++ rest)%list acc w
  = map_rows vendor_id rest (acc ++ map (product_dict vendor_id) pre)%list w.
Proof.
  revert acc. induction pre as [| r pre IH]; intros acc H; simpl.
  - rewrite app_nil_r. reflexivity.
  - apply andb_prop in H as [Hr Hp].
    unfold bind. rewrite (mk_product_ok _ _ _ Hr), IH by exact Hp.
    rewrite <- app_assoc. reflexivity.
Qed.

(** When a row lacks a column, the error line names the first column, in
    the dict's order, missing from the first such row. *)
Theorem insert_products_reports_first_missing (csv_file vendor_id : string)
  (w : world) (pre post : table) (r : row) (c : string) :
  w_read w csv_file = inr (pre ++ r :: post)%list ->
  (forall r', In r' pre -> has_required_columns r' = true) ->
  first_missing r = Some c ->
  insert_products csv_file vendor_id w
  = (set_out w (w_out w ++ [LError csv_file ("'" ++ c ++ "'")])%list,
     Ok tt).
Proof.
  intros E Hpre Hc.
  assert (H : forallb has_required_columns pre = true)
    by (apply forallb_forall; exact Hpre).
  unfold insert_products, try_except, bind, read_csv.
  rewrite E. simpl. rewrite (map_rows_app_ok _ _ _ _ _ H). simpl.
  unfold bind. rewrite (mk_product_first_missing _ _ _ _ Hc).
  reflexivity.
Qed.

Lemma insert_products_rerun_duplicates_witness :
  w_read (sample_world (inr [spec_row]) None) "vendors_a.csv" = inr [spec_row] /\
  (forall r, In r [spec_row] -> has_required_columns r = true) /\
  [spec_row] <> [] /\
  w_insert (sample_world (inr [spec_row]) None)
    (map (product_dict "v1") [spec_row]) = None /\
  w_coll (fst (insert_products "vendors_a.csv" "v1"
                 (fst (insert_products "vendors_a.csv" "v1"
                         (sample_world (inr [spec_row]) None)))))
  = (w_coll (sample_world (inr [spec_row]) None)
       ++ map (product_dict "v1") [spec_row]
       ++ map (product_dict "v1") [spec_row])%list.
Proof.
  assert (Hwf : forall r, In r [spec_row] -> has_required_columns r = true)
    by (apply forallb_forall; reflexivity).
  assert (Hne : [spec_row] <> []) by discriminate.
  split; [reflexivity |]. split; [exact Hwf |]. split; [exact Hne |].
  split; [reflexivity |].
  exact (insert_products_rerun_duplicates "vendors_a.csv" "v1"
           (sample_world (inr [spec_row]) None) [spec_row]
           eq_refl Hwf Hne eq_refl).
Defined.

Lemma insert_products_success_line_truthful_witness :
  w_out (fst (insert_products "vendors_a.csv" "v1"
                (sample_world (inr [spec_row; spec_row]) None)))
    = (w_out (sample_world (inr [spec_row; spec_row]) None)
       ++ [LSuccess 2 "vendors_a.csv" "v1"])%list /\
  "vendors_a.csv" = "vendors_a.csv" /\ "v1" = "v1" /\
  exists stored,
    w_coll (fst (insert_products "vendors_a.csv" "v1"
                   (sample_world (inr [spec_row; spec_row]) None)))
      = (w_coll (sample_world (inr [spec_row; spec_row]) None) ++ stored)%list /\
    length stored = 2 /\
    (forall p, In p stored -> assoc "vendor" p = Some (VStr "v1")).
Proof.
  assert (Hout : w_out (fst (insert_products "vendors_a.csv" "v1"
                   (sample_world (inr [spec_row; spec_row]) None)))
    = (w_out (sample_world (inr [spec_row; spec_row]) None)
       ++ [LSuccess 2 "vendors_a.csv" "v1"])%list) by (vm_compute; reflexivity).
  split; [exact Hout |].
  exact (insert_products_success_line_truthful "vendors_a.csv" "v1"
           (sample_world (inr [spec_row; spec_row]) None) 2
           "vendors_a.csv" "v1" Hout).
Defined.

(** The example row without its Cost and Max Volume columns. *)
Definition partial_row : row :=
  [("Manufacturer", VStr "Acme"); ("Model", VStr "X100"); ("Speed", VInt 30);
   ("Description", VStr "fast printer"); ("Installation", VInt 50);
   ("Profit Margin", VFloat "0.2"); ("Min Volume", VInt 1);
   ("Total Machine Cost", VInt 600)].

Lemma insert_products_reports_first_missing_witness :
  w_read (sample_world (inr [spec_row; partial_row; spec_row]) None)
    "vendors_c.csv" = inr ([spec_row] ++ partial_row :: [spec_row])%list /\
  (forall r', In r' [spec_row] -> has_required_columns r' = true) /\
  first_missing partial_row = Some "Cost" /\
  insert_products "vendors_c.csv" "v3"
    (sample_world (inr [spec_row; partial_row; spec_row]) None)
  = (set_out (sample_world (inr [spec_row; partial_row; spec_row]) None)
       [LError "vendors_c.csv" "'Cost'"], Ok tt).
Proof.
  assert (Hpre : forall r', In r' [spec_row] -> has_required_columns r' = true)
    by (apply forallb_forall; reflexivity).
  split; [reflexivity |]. split; [exact Hpre |]. split; [reflexivity |].
  exact (insert_products_reports_first_missing "vendors_c.csv" "v3"
           (sample_world (inr [spec_row; partial_row; spec_row]) None)
           [spec_row] [spec_row] partial_row "Cost" eq_refl Hpre eq_refl).
Defined.
